(** * Userspace driver facades of Tock (apps/libs/firestorm.c)

    A shallow embedding of the facade library that turns the asynchronous
    system calls [allow], [subscribe] and [command] into console, timer, SPI
    and serial co-processor calls, together with a small operational model
    of the process: its heap, the kernel seen as an arbitrary environment,
    and the cooperative dispatch of callbacks inside [wait_for]. *)

From Stdlib Require Import ZArith List Bool Lia.
From Stdlib Require Import Strings.Byte.
From stdpp Require Import base option list gmap.

Local Open Scope Z_scope.

(** ** C integer conversions (32-bit target, arm-none-eabi) *)

Module CInt.

Definition uint32_modulus : Z := 2 ^ 32.
Definition int_half_modulus : Z := 2 ^ 31.

(** conversion to [size_t]: reduction modulo 2^32 *)
Definition to_size_t (z : Z) : Z := z mod uint32_modulus.

(** conversion to [int]: the same 32 bits read as two's complement *)
Definition to_int (z : Z) : Z :=
  let u := z mod uint32_modulus in
  if u <? int_half_modulus then u else u - uint32_modulus.

Definition sizeof_char : Z := 1.

(** [a * b] computed in [size_t] *)
Definition size_mul (a b : Z) : Z := to_size_t (a * b).

Definition is_size_t (z : Z) : Prop := 0 <= z < uint32_modulus.

End CInt.
Export CInt.

(** ** The system-call interface (tock.h) and the C library calls used *)

Definition ptr := Z.
Definition NULL : ptr := 0.

(** Modelled from the spec: the callback tags of firestorm.h, which is not
    part of the sources.  The spec describes a closed, finite enumeration
    with one tag per class of asynchronous operation; firestorm.c names
    [PUTSTR], [DELAY] and [SPIBUF].  [CB_OTHER] stands for the members of
    the enumeration that firestorm.c does not name. *)
Inductive CB_TYPE : Type :=
| PUTSTR
| DELAY
| SPIBUF
| CB_OTHER (n : nat).

#[global] Instance CB_TYPE_eq_dec : EqDecision CB_TYPE.
Proof. solve_decision. Defined.

(** A [subscribe_cb] is a pointer to a function
    [CB_TYPE (int, int, int, void* )].  The three callbacks defined in
    firestorm.c are named; [FN_app id] is a callback defined by the
    application. *)
Inductive subscribe_cb : Type :=
| FN_putstr_cb
| FN_delay_cb
| FN_spi_cb
| FN_app (id : nat).

#[global] Instance subscribe_cb_eq_dec : EqDecision subscribe_cb.
Proof. solve_decision. Defined.

(** What the code asks of its environment: the C library ([malloc], [free],
    [strncpy], [strlen]), the kernel ([allow], [subscribe], [command],
    [wait_for]) and the body of an application callback. *)
Inductive call : Type -> Type :=
| Malloc (size : Z) : call ptr
| Free (p : ptr) : call unit
| Strncpy (dst src : ptr) (n : Z) : call unit
| Strlen (s : ptr) : call Z
| Allow (driver allow_num : Z) (p : ptr) (size : Z) : call Z
| Subscribe (driver subscribe_num : Z) (cb : subscribe_cb) (userdata : ptr) : call Z
| Command (driver command_num data : Z) : call Z
| Wait_for (t : CB_TYPE) : call unit
| App_body (id : nat) (x y z : Z) (userdata : ptr) : call CB_TYPE.

(** Programs: a result, or a call followed by the rest of the program. *)
Inductive prog (A : Type) : Type :=
| Ret (a : A)
| Vis {X : Type} (c : call X) (k : X -> prog A).
Arguments Ret {A} a.
Arguments Vis {A X} c k.

Fixpoint prog_bind_def {A B : Type} (f : A -> prog B) (p : prog A) : prog B :=
  match p with
  | Ret a => f a
  | Vis c k => Vis c (fun x => prog_bind_def f (k x))
  end.

#[global] Instance prog_ret : MRet prog := fun A a => Ret a.
#[global] Instance prog_bind : MBind prog := fun A B f p => prog_bind_def f p.

Definition perform {X : Type} (c : call X) : prog X := Vis c Ret.

Definition malloc (size : Z) : prog ptr := perform (Malloc size).
Definition free (p : ptr) : prog unit := perform (Free p).
Definition strncpy (dst src : ptr) (n : Z) : prog unit := perform (Strncpy dst src n).
Definition strlen (s : ptr) : prog Z := perform (Strlen s).
Definition allow (driver allow_num : Z) (p : ptr) (size : Z) : prog Z :=
  perform (Allow driver allow_num p size).
Definition subscribe (driver subscribe_num : Z) (cb : subscribe_cb) (userdata : ptr) : prog Z :=
  perform (Subscribe driver subscribe_num cb userdata).
Definition command (driver command_num data : Z) : prog Z :=
  perform (Command driver command_num data).
Definition wait_for (t : CB_TYPE) : prog unit := perform (Wait_for t).

(** ** firestorm.c *)

Module Firestorm.

Definition putstr_cb (_x _y _z : Z) (str : ptr) : prog CB_TYPE :=
  free str;;
  mret PUTSTR.

Definition putnstr_async (str : ptr) (len : Z) (cb : subscribe_cb) (userdata : ptr)
  : prog unit :=
  allow 0 1 str len;;
  subscribe 0 1 cb userdata;;
  mret tt.

Definition putnstr (str : ptr) (len : Z) : prog unit :=
  buf ← malloc (size_mul len sizeof_char);
  strncpy buf str len;;
  putnstr_async buf len FN_putstr_cb buf;;
  wait_for PUTSTR.

Definition putstr (str : ptr) : prog unit :=
  n ← strlen str;
  putnstr str n.

Definition timer_subscribe (cb : subscribe_cb) (userdata : ptr) : prog Z :=
  subscribe 3 0 cb userdata.

Definition timer_oneshot (interval : Z) : prog Z :=
  command 3 0 (to_int interval).

Definition timer_start_repeating (interval : Z) : prog Z :=
  command 3 1 (to_int interval).

Definition delay_cb (_x _y _z : Z) (_ud : ptr) : prog CB_TYPE :=
  mret DELAY.

Definition delay_ms (ms : Z) : prog unit :=
  timer_subscribe FN_delay_cb NULL;;
  timer_oneshot ms;;
  wait_for DELAY.

Definition spi_write_byte (byte : Z) : prog Z :=
  command 4 0 (to_int byte).

Definition spi_read_buf (str : ptr) (len : Z) : prog Z :=
  allow 4 0 str len.

Definition spi_cb (unused0 unused1 unused2 : Z) (ud : ptr) : prog CB_TYPE :=
  mret SPIBUF.

Definition spi_write (str : ptr) (len : Z) (cb : subscribe_cb) : prog Z :=
  err ← allow 4 1 str len;
  if err <? 0 then mret err
  else
    err ← subscribe 4 0 cb NULL;
    if err <? 0 then mret err
    else command 4 1 (to_int len).

Definition spi_read_write (write read : ptr) (len : Z) (cb : subscribe_cb) : prog Z :=
  err ← allow 4 0 read len;
  if err <? 0 then mret err
  else spi_write write len cb.

Definition spi_block_write (str : ptr) (len : Z) : prog Z :=
  spi_write str len FN_spi_cb.

Definition nrf51822_serialization_subscribe (cb : subscribe_cb) : prog unit :=
  subscribe 5 0 cb NULL;;
  mret tt.

Definition nrf51822_serialization_setup_rx_buffer (rx : ptr) (rx_len : Z) : prog unit :=
  allow 5 0 rx (to_size_t rx_len);;
  mret tt.

Definition nrf51822_serialization_write (tx : ptr) (tx_len : Z) : prog unit :=
  allow 5 1 tx (to_size_t tx_len);;
  command 5 0 0;;
  mret tt.

(** The code behind each function pointer.  The body of an application
    callback is not part of firestorm.c: it is taken to yield a tag chosen
    by the environment and to leave the heap alone. *)
Definition cb_code (cb : subscribe_cb) (x y z : Z) (ud : ptr) : prog CB_TYPE :=
  match cb with
  | FN_putstr_cb => putstr_cb x y z ud
  | FN_delay_cb => delay_cb x y z ud
  | FN_spi_cb => spi_cb x y z ud
  | FN_app id => perform (App_body id x y z ud)
  end.

End Firestorm.
Export Firestorm.

(** ** The process and its environment *)

Module Machine.

Inductive event : Type :=
| EvMalloc (size : Z) (res : ptr)
| EvFree (p : ptr)
| EvStrncpy (dst src : ptr) (n : Z)
| EvStrlen (s : ptr)
| EvAllow (driver allow_num : Z) (p : ptr) (size : Z) (res : Z)
| EvSubscribe (driver subscribe_num : Z) (cb : subscribe_cb) (userdata : ptr) (res : Z)
| EvCommand (driver command_num data : Z) (res : Z)
| EvWaitFor (t : CB_TYPE)
| EvEnter (cb : subscribe_cb) (x y z : Z) (userdata : ptr)
| EvLeave (t : CB_TYPE).

#[global] Instance event_eq_dec : EqDecision event.
Proof. solve_decision. Defined.

(** A log entry: the event and the callback nesting at which it happened
    (0: the code that runs outside every callback). *)
Record entry : Type := Entry { e_depth : nat; e_event : event }.

#[global] Instance entry_eq_dec : EqDecision entry.
Proof. solve_decision. Defined.

(** The environment.  The kernel and the allocator are outside the library:
    each answer is an arbitrary function of everything that has happened so
    far.  [k_yield] is the callback invocation the kernel delivers next to a
    process that yields ([None]: it never delivers one again), [k_app] the
    tag an application callback returns. *)
Record kernel : Type := Kernel {
  k_malloc : list entry -> Z -> ptr;
  k_allow : list entry -> Z -> Z -> ptr -> Z -> Z;
  k_subscribe : list entry -> Z -> Z -> subscribe_cb -> ptr -> Z;
  k_command : list entry -> Z -> Z -> Z -> Z;
  k_yield : list entry -> option (subscribe_cb * (Z * Z * Z) * ptr);
  k_app : list entry -> nat -> Z -> Z -> Z -> ptr -> CB_TYPE
}.

Record machine : Type := Mk {
  mem : gmap Z (list byte);   (* objects of the process, by base address *)
  live : gset Z;              (* blocks malloc handed out and free has not taken back *)
  depth : nat;                (* callback nesting of the running code *)
  log : list entry            (* what happened so far, oldest first *)
}.

Inductive outcome (A : Type) : Type :=
| Done (a : A) (s : machine)   (* returned *)
| Blocked (s : machine)        (* yielded, and the kernel delivers nothing more *)
| OutOfFuel (s : machine)      (* still dispatching when the fuel ran out *)
| Fault (s : machine).         (* undefined behaviour of the C library *)
Arguments Done {A} a s.
Arguments Blocked {A} s.
Arguments OutOfFuel {A} s.
Arguments Fault {A} s.

Definition final {A : Type} (o : outcome A) : machine :=
  match o with
  | Done _ s | Blocked s | OutOfFuel s | Fault s => s
  end.

Definition record (ev : event) (s : machine) : machine :=
  Mk (mem s) (live s) (depth s) (log s ++ [Entry (depth s) ev]).

(** *** The C library *)

Definition is_nul (c : byte) : bool := Byte.eqb c x00.

(** The [n] bytes [strncpy] writes when it reads from an object holding
    [src]: the characters up to the first NUL, then NULs; [None] when it
    would read past the end of the object. *)
Fixpoint strncpy_bytes (src : list byte) (n : nat) {struct n} : option (list byte) :=
  match n with
  | O => Some []
  | S n' =>
      match src with
      | [] => None
      | c :: src' =>
          if is_nul c then Some (repeat x00 (S n'))
          else cons c <$> strncpy_bytes src' n'
      end
  end.


(** [strlen]: the index of the first NUL; [None] when the object has none. *)
Fixpoint strlen_bytes (src : list byte) : option nat :=
  match src with
  | [] => None
  | c :: src' => if is_nul c then Some O else S <$> strlen_bytes src'
  end.

Definition do_malloc (K : kernel) (size : Z) (s : machine) : outcome ptr :=
  let p := k_malloc K (log s) size in
  let s1 := record (EvMalloc size p) s in
  if decide (p = NULL) then Done NULL s1
  else
    match mem s1 !! p with
    | Some _ => Fault s1
    | None =>
        Done p (Mk (<[p := repeat x00 (Z.to_nat size)]> (mem s1))
                   ({[p]} ∪ live s1) (depth s1) (log s1))
    end.

Definition do_free (p : ptr) (s : machine) : outcome unit :=
  let s1 := record (EvFree p) s in
  if decide (p = NULL) then Done tt s1
  else if decide (p ∈ live s1)
       then Done tt (Mk (delete p (mem s1)) (live s1 ∖ {[p]}) (depth s1) (log s1))
       else Fault s1.

(** Both pointers must point to objects (a null pointer is undefined
    behaviour even for [n = 0]), the destination must have room for [n]
    bytes, and the read must stay inside the source. *)
Definition do_strncpy (dst src : ptr) (n : Z) (s : machine) : outcome unit :=
  let s1 := record (EvStrncpy dst src n) s in
  if decide (dst = NULL \/ src = NULL) then Fault s1
  else
    match mem s1 !! dst, mem s1 !! src with
    | Some d, Some sb =>
        if decide (Z.to_nat n ≤ length d)%nat
        then match strncpy_bytes sb (Z.to_nat n) with
             | Some w =>
                 Done tt (Mk (<[dst := w ++ drop (Z.to_nat n) d]> (mem s1))
                             (live s1) (depth s1) (log s1))
             | None => Fault s1
             end
        else Fault s1
    | _, _ => Fault s1
    end.

Definition do_strlen (p : ptr) (s : machine) : outcome Z :=
  let s1 := record (EvStrlen p) s in
  if decide (p = NULL) then Fault s1
  else
    match mem s1 !! p with
    | Some sb =>
        match strlen_bytes sb with
        | Some k => Done (Z.of_nat k) s1
        | None => Fault s1
        end
    | None => Fault s1
    end.

(** *** The kernel calls that do not suspend *)

Definition do_allow (K : kernel) (driver num : Z) (p : ptr) (size : Z) (s : machine)
  : outcome Z :=
  let r := k_allow K (log s) driver num p size in
  Done r (record (EvAllow driver num p size r) s).

Definition do_subscribe (K : kernel) (driver num : Z) (cb : subscribe_cb) (ud : ptr)
    (s : machine) : outcome Z :=
  let r := k_subscribe K (log s) driver num cb ud in
  Done r (record (EvSubscribe driver num cb ud r) s).

Definition do_command (K : kernel) (driver num data : Z) (s : machine) : outcome Z :=
  let r := k_command K (log s) driver num data in
  Done r (record (EvCommand driver num data r) s).

Definition do_app (K : kernel) (id : nat) (x y z : Z) (ud : ptr) (s : machine)
  : outcome CB_TYPE :=
  Done (k_app K (log s) id x y z ud) s.

(** *** Running a program *)

Section Exec.
Variable K : kernel.
(** how a wait is served once [wait_for] has been entered *)
Variable serve : CB_TYPE -> machine -> outcome unit.

Definition handle {X : Type} (c : call X) (s : machine) : outcome X :=
  match c in call X return outcome X with
  | Malloc size => do_malloc K size s
  | Free p => do_free p s
  | Strncpy dst src n => do_strncpy dst src n s
  | Strlen p => do_strlen p s
  | Allow d n p size => do_allow K d n p size s
  | Subscribe d n cb ud => do_subscribe K d n cb ud s
  | Command d n data => do_command K d n data s
  | Wait_for t => serve t (record (EvWaitFor t) s)
  | App_body id x y z ud => do_app K id x y z ud s
  end.

Fixpoint exec {A : Type} (p : prog A) (s : machine) : outcome A :=
  match p with
  | Ret a => Done a s
  | Vis c k =>
      match handle c s with
      | Done x s1 => exec (k x) s1
      | Blocked s1 => Blocked s1
      | OutOfFuel s1 => OutOfFuel s1
      | Fault s1 => Fault s1
      end
  end.
End Exec.

Definition enter (cb : subscribe_cb) (x y z : Z) (ud : ptr) (s : machine) : machine :=
  Mk (mem s) (live s) (S (depth s))
     (log s ++ [Entry (S (depth s)) (EvEnter cb x y z ud)]).

Definition leave (d : nat) (t : CB_TYPE) (s : machine) : machine :=
  Mk (mem s) (live s) d (log s ++ [Entry (S d) (EvLeave t)]).

(** Modelled from the spec: [wait_for] of tock.h, which is not part of the
    sources.  It services the next callback the kernel delivers (runs the
    callback with the arguments and user data supplied, to completion) and
    repeats until one execution yields exactly the tag waited for.  Each
    dispatch uses one unit of fuel. *)
Fixpoint serve_wait (K : kernel) (fuel : nat) (t : CB_TYPE) (s : machine)
  : outcome unit :=
  match fuel with
  | O => OutOfFuel s
  | S fuel' =>
      match k_yield K (log s) with
      | None => Blocked s
      | Some (cb, (x, y, z), ud) =>
          match exec K (serve_wait K fuel') (cb_code cb x y z ud) (enter cb x y z ud s) with
          | Done tag s1 =>
              let s2 := leave (depth s) tag s1 in
              if decide (tag = t) then Done tt s2 else serve_wait K fuel' t s2
          | Blocked s1 => Blocked s1
          | OutOfFuel s1 => OutOfFuel s1
          | Fault s1 => Fault s1
          end
      end
  end.

Definition run {A : Type} (K : kernel) (fuel : nat) (p : prog A) (s : machine)
  : outcome A :=
  exec K (serve_wait K fuel) p s.

(** The events the code logged at nesting [d], and the part of a log added
    after the first [n] entries. *)
Definition at_depth (d : nat) (l : list entry) : list event :=
  e_event <$> filter (fun e => e_depth e = d) l.

Definition since (n : nat) (l : list entry) : list entry := drop n l.

End Machine.
Export Machine.

(** ** Reading the log *)

Module Log.

(** The events a program itself issued in a run: those logged after the
    start at the nesting of the start.  What a callback dispatched during a
    wait does is logged one level deeper. *)
Definition issued {A : Type} (K : kernel) (fuel : nat) (p : prog A) (s : machine)
  : list event :=
  at_depth (depth s) (since (length (log s)) (log (final (run K fuel p s)))).

(** Everything logged during a run, callbacks included. *)
Definition added {A : Type} (K : kernel) (fuel : nat) (p : prog A) (s : machine)
  : list entry :=
  since (length (log s)) (log (final (run K fuel p s))).

Definition event_driver (ev : event) : option Z :=
  match ev with
  | EvAllow d _ _ _ _ | EvSubscribe d _ _ _ _ | EvCommand d _ _ _ => Some d
  | _ => None
  end.

(** The driver numbers addressed, in order. *)
Definition drivers (evs : list event) : list Z := omap event_driver evs.

(** The status a kernel call returned. *)
Definition event_result (ev : event) : option Z :=
  match ev with
  | EvAllow _ _ _ _ r | EvSubscribe _ _ _ _ r | EvCommand _ _ _ r => Some r
  | _ => None
  end.

Definition is_free_of (p : ptr) (e : entry) : bool :=
  match e_event e with
  | EvFree q => bool_decide (q = p)
  | _ => false
  end.

Definition is_wait (ev : event) : bool :=
  match ev with
  | EvWaitFor _ => true
  | _ => false
  end.

Definition is_subscription (cb : subscribe_cb) (ud : ptr) (e : entry) : bool :=
  match e_event e with
  | EvSubscribe _ _ cb' ud' _ => bool_decide (cb' = cb) && bool_decide (ud' = ud)
  | _ => false
  end.

Definition is_invocation (cb : subscribe_cb) (ud : ptr) (e : entry) : bool :=
  match e_event e with
  | EvEnter cb' _ _ _ ud' => bool_decide (cb' = cb) && bool_decide (ud' = ud)
  | _ => false
  end.

Definition count (f : entry -> bool) (l : list entry) : nat :=
  length (List.filter f l).

(** How often [p] was passed to [free]. *)
Definition frees (p : ptr) (l : list entry) : nat := count (is_free_of p) l.

End Log.
Export Log.

(** ** What a kernel may be assumed to do *)

Module Contract.




End Contract.
Export Contract.

(** ** Kernels and machines to run the code on *)

Module Stub.

Definition subscriptions (l : list entry) : list (subscribe_cb * ptr) :=
  omap (fun e => match e_event e with
                 | EvSubscribe _ _ cb ud _ => Some (cb, ud)
                 | _ => None
                 end) l.

Definition outstanding (l : list entry) (r : subscribe_cb * ptr) : bool :=
  (count (is_invocation r.1 r.2) l <? count (is_subscription r.1 r.2) l)%nat.

(** Delivers each subscription once, oldest first. *)
Definition yield_once (l : list entry) : option (subscribe_cb * (Z * Z * Z) * ptr) :=
  match List.find (outstanding l) (subscriptions l) with
  | Some (cb, ud) => Some (cb, (0, 0, 0), ud)
  | None => None
  end.

(** A kernel on which every call succeeds with status 0. *)
Definition good_kernel : kernel :=
  Kernel (fun l _ => 4096 + Z.of_nat (length l))
         (fun _ _ _ _ _ => 0)
         (fun _ _ _ _ _ => 0)
         (fun _ _ _ _ => 0)
         yield_once
         (fun _ id _ _ _ _ => CB_OTHER id).

(** A kernel that refuses every [allow] with status -1. *)
Definition refusing_kernel : kernel :=
  Kernel (fun l _ => 4096 + Z.of_nat (length l))
         (fun _ _ _ _ _ => -1)
         (fun _ _ _ _ _ => 0)
         (fun _ _ _ _ => 0)
         yield_once
         (fun _ id _ _ _ _ => CB_OTHER id).

(** A kernel that delivers the invocation [(cb, ud)] again and again. *)
Definition repeating_kernel (cb : subscribe_cb) (ud : ptr) : kernel :=
  Kernel (fun l _ => 4096 + Z.of_nat (length l))
         (fun _ _ _ _ _ => 0)
         (fun _ _ _ _ _ => 0)
         (fun _ _ _ _ => 0)
         (fun _ => Some (cb, (0, 0, 0), ud))
         (fun _ id _ _ _ _ => CB_OTHER id).

(** The string "hi" at address 100, nothing on the heap, nothing logged. *)
Definition hi_machine : machine :=
  Mk {[ 100 := [x68; x69; x00] ]} ∅ 0 [].

(** One live heap block of two bytes at address 4096. *)
Definition heap_machine : machine :=
  Mk {[ 4096 := [x68; x69] ]} {[ 4096 ]} 0 [].

End Stub.
Export Stub.

(** ** Properties of runs and of programs *)

Module Props.

Definition outcome_bind {A B : Type} (o : outcome A) (f : A -> machine -> outcome B)
  : outcome B :=
  match o with
  | Done a s => f a s
  | Blocked s => Blocked s
  | OutOfFuel s => OutOfFuel s
  | Fault s => Fault s
  end.

(** [s'] continues the log of [s] with entries at nesting [d] or deeper. *)
Definition grows (d : nat) (s s' : machine) : Prop :=
  exists ext, log s' = log s ++ ext /\ Forall (fun e => (d <= e_depth e)%nat) ext.

(** A way to serve waits is sound when it only adds deeper entries and
    hands the machine back at the nesting it got it. *)
Definition serve_ok (serve : CB_TYPE -> machine -> outcome unit) : Prop :=
  forall t s,
    grows (S (depth s)) s (final (serve t s)) /\
    (forall u s', serve t s = Done u s' -> depth s' = depth s).

Definition outcome_ok {A : Type} (s : machine) (o : outcome A) : Prop :=
  grows (depth s) s (final o) /\ (forall a s', o = Done a s' -> depth s' = depth s).

(** The tag each callback of firestorm.c is written to yield. *)
Definition tag_of (cb : subscribe_cb) : option CB_TYPE :=
  match cb with
  | FN_putstr_cb => Some PUTSTR
  | FN_delay_cb => Some DELAY
  | FN_spi_cb => Some SPIBUF
  | FN_app _ => None
  end.


(** A second invocation of the print-completion callback on the same buffer
    returns normally and does not call [free] again. *)
Definition duplicate_is_noop (K : kernel) (fuel : nat) (buf : ptr) (s : machine) : Prop :=
  forall x y z s1,
    run K fuel (putstr_cb x y z buf) s = Done PUTSTR s1 ->
    exists s2,
      run K fuel (putstr_cb x y z buf) s1 = Done PUTSTR s2 /\
      frees buf (log s2) = frees buf (log s1).

(** The first half of [putnstr]: the private copy, before it is granted. *)
Definition putnstr_copy (str : ptr) (len : Z) : prog ptr :=
  buf ← malloc (size_mul len sizeof_char);
  strncpy buf str len;;
  mret buf.

(** The code waits for [t] itself before it returns. *)
Definition waits_before_return {A : Type} (K : kernel) (fuel : nat) (p : prog A)
    (s : machine) (t : CB_TYPE) : Prop :=
  forall a s', run K fuel p s = Done a s' -> In (EvWaitFor t) (issued K fuel p s).

(** A kernel call that returns a negative status is the last call issued. *)
Definition aborts_on_failure {A : Type} (K : kernel) (fuel : nat) (p : prog A)
    (s : machine) : Prop :=
  forall pre ev rest r,
    issued K fuel p s = pre ++ ev :: rest ->
    event_result ev = Some r -> r < 0 -> rest = [].

(** A negative status of a kernel call is the value the code returns. *)
Definition returns_failure (K : kernel) (fuel : nat) (p : prog Z) (s : machine) : Prop :=
  forall pre ev rest r,
    issued K fuel p s = pre ++ ev :: rest ->
    event_result ev = Some r -> r < 0 ->
    exists s', run K fuel p s = Done r s'.

(** The run returned without ever suspending or running a callback: all it
    logged, it logged itself, and none of it is a wait. *)
Definition never_suspends {A : Type} (K : kernel) (fuel : nat) (p : prog A)
    (s : machine) : Prop :=
  (exists a s', run K fuel p s = Done a s') /\
  Forall (fun e => e_depth e = depth s /\ is_wait (e_event e) = false) (added K fuel p s).

Definition call_addresses (d : Z) {X : Type} (c : call X) : Prop :=
  match c with
  | Allow d' _ _ _ | Subscribe d' _ _ _ | Command d' _ _ => d' = d
  | _ => True
  end.

(** Every kernel call in the program, on every path, names driver [d]. *)
Inductive uses_only (d : Z) {A : Type} : prog A -> Prop :=
| uses_ret (a : A) : uses_only d (Ret a)
| uses_vis {X : Type} (c : call X) (k : X -> prog A) :
    call_addresses d c -> (forall x, uses_only d (k x)) -> uses_only d (Vis c k).

Definition addresses_driver (d : Z) (evs : list event) : Prop :=
  Forall (fun x => x = d) (drivers evs).

End Props.
Export Props.

(** ** Further properties of programs and further kernels *)

Module Coverage.




(** The kernel never delivers a callback that yields [t]. *)
Definition never_yields (K : kernel) (t : CB_TYPE) : Prop :=
  forall l cb x y z ud,
    k_yield K l = Some (cb, (x, y, z), ud) ->
    match cb with
    | FN_app id => forall l', k_app K l' id x y z ud <> t
    | _ => tag_of cb <> Some t
    end.

(** What a callback dispatch logs: entering, a [free], leaving. *)
Definition dispatch_entry (e : entry) : Prop :=
  match e_event e with
  | EvEnter _ _ _ _ _ | EvFree _ | EvLeave _ => True
  | _ => False
  end.

(** A kernel that refuses the grant of a write buffer (allow number 1) with
    status -1 and accepts everything else. *)
Definition write_refusing_kernel : kernel :=
  Kernel (fun l _ => 4096 + Z.of_nat (length l))
         (fun _ _ num _ _ => if num =? 1 then -1 else 0)
         (fun _ _ _ _ _ => 0)
         (fun _ _ _ _ => 0)
         yield_once
         (fun _ id _ _ _ _ => CB_OTHER id).


(** A kernel that delivers an application callback which yields [PUTSTR]. *)
Definition confusing_kernel : kernel :=
  Kernel (fun l _ => 4096 + Z.of_nat (length l))
         (fun _ _ _ _ _ => 0)
         (fun _ _ _ _ _ => 0)
         (fun _ _ _ _ => 0)
         (fun _ => Some (FN_app 0, (0, 0, 0), NULL))
         (fun _ _ _ _ _ _ => PUTSTR).

End Coverage.
Export Coverage.

(** ** General facts about runs *)

Module Facts.

Lemma exec_bind {A B : Type} K serve (p : prog A) (f : A -> prog B) s :
  exec K serve (p ≫= f) s = outcome_bind (exec K serve p s) (fun a s1 => exec K serve (f a) s1).
Proof.
  revert s. induction p as [a | X c k IH]; intros s; [reflexivity |].
  change (Vis c k ≫= f) with (Vis c (fun x => k x ≫= f)).
  simpl. destruct (handle K serve c s); simpl; auto.
Qed.

Lemma grows_refl d s : grows d s s.
Proof. exists []. split; [by rewrite app_nil_r | constructor]. Qed.

Lemma grows_trans d s1 s2 s3 : grows d s1 s2 -> grows d s2 s3 -> grows d s1 s3.
Proof.
  intros (e1 & H1 & F1) (e2 & H2 & F2). exists (e1 ++ e2). split.
  - by rewrite H2, H1, app_assoc.
  - by apply Forall_app.
Qed.

Lemma grows_weaken d d' s s' : (d <= d')%nat -> grows d' s s' -> grows d s s'.
Proof.
  intros Hle (e & H & F). exists e. split; [done |].
  eapply Forall_impl; [exact F |]. simpl. intros; lia.
Qed.

Lemma grows_record ev s : grows (depth s) s (record ev s).
Proof. exists [Entry (depth s) ev]. split; [done |]. repeat constructor. Qed.

Lemma handle_ok K serve {X : Type} (c : call X) s :
  serve_ok serve -> outcome_ok s (handle K serve c s).
Proof.
  intros Hserve. unfold outcome_ok.
  destruct c; simpl.
  - unfold do_malloc. case_decide; simpl.
    + split; [apply grows_record | intros ? ? [= <- <-]; done].
    + destruct (mem _ !! _); simpl.
      * split; [apply grows_record | discriminate].
      * split; [apply grows_record | intros ? ? [= <- <-]; done].
  - unfold do_free. repeat case_decide; simpl;
      (split; [apply grows_record | try discriminate; intros ? ? [= <- <-]; done]).
  - unfold do_strncpy. case_decide; [split; [apply grows_record | discriminate] |].
    destruct (mem _ !! dst); [destruct (mem _ !! src) |]; simpl;
      try (split; [apply grows_record | discriminate]).
    case_decide; [destruct (strncpy_bytes _ _) |]; simpl;
      (split; [apply grows_record | try discriminate; intros ? ? [= <- <-]; done]).
  - unfold do_strlen. case_decide; [split; [apply grows_record | discriminate] |].
    destruct (mem _ !! s0); [destruct (strlen_bytes _) |]; simpl;
      (split; [apply grows_record | try discriminate; intros ? ? [= <- <-]; done]).
  - split; [apply grows_record | intros ? ? [= <- <-]; done].
  - split; [apply grows_record | intros ? ? [= <- <-]; done].
  - split; [apply grows_record | intros ? ? [= <- <-]; done].
  - destruct (Hserve t (record (EvWaitFor t) s)) as [Hg Hd]. split.
    + eapply grows_trans; [apply grows_record |].
      eapply grows_weaken; [| exact Hg]. simpl. lia.
    + intros u s' Hs. by rewrite (Hd u s' Hs).
  - split; [apply grows_refl | intros ? ? [= <- <-]; done].
Qed.

Lemma exec_ok K serve {A : Type} (p : prog A) s :
  serve_ok serve -> outcome_ok s (exec K serve p s).
Proof.
  intros Hserve. revert s. induction p as [a | X c k IH]; intros s.
  - split; [apply grows_refl | intros ? ? [= <- <-]; done].
  - simpl. destruct (handle_ok K serve c s Hserve) as [Hg Hd].
    destruct (handle K serve c s) as [x s1 | s1 | s1 | s1] eqn:Hc; simpl in *;
      try (split; [exact Hg | discriminate]).
    specialize (Hd x s1 eq_refl).
    destruct (IH x s1) as [Hg' Hd']. rewrite Hd in Hg', Hd'. split.
    + eapply grows_trans; eauto.
    + exact Hd'.
Qed.

Lemma serve_wait_ok K fuel : serve_ok (serve_wait K fuel).
Proof.
  induction fuel as [| fuel IH]; intros t s; simpl.
  - split; [apply grows_refl | discriminate].
  - destruct (k_yield K (log s)) as [[[cb [[x y] z]] ud] |]; simpl;
      [| split; [apply grows_refl | discriminate]].
    assert (Hent : grows (S (depth s)) s (enter cb x y z ud s)).
    { eexists. split; [reflexivity |]. repeat constructor. }
    destruct (exec_ok K (serve_wait K fuel) (cb_code cb x y z ud) (enter cb x y z ud s) IH)
      as [Hg Hd].
    destruct (exec K (serve_wait K fuel) (cb_code cb x y z ud) (enter cb x y z ud s))
      as [tag s1 | s1 | s1 | s1] eqn:Hx; simpl in *;
      try (split; [eapply grows_trans; eauto | discriminate]).
    assert (Hlv : grows (S (depth s)) s (leave (depth s) tag s1)).
    { eapply grows_trans; [exact Hent |]. eapply grows_trans; [exact Hg |].
      eexists. split; [reflexivity |]. repeat constructor. }
    case_decide.
    + split; [exact Hlv | intros ? ? [= <- <-]; done].
    + destruct (IH t (leave (depth s) tag s1)) as [Hg2 Hd2]. simpl in *. split.
      * eapply grows_trans; eauto.
      * exact Hd2.
Qed.

Lemma run_ok {A : Type} K fuel (p : prog A) s : outcome_ok s (run K fuel p s).
Proof. apply exec_ok, serve_wait_ok. Qed.

(** *** Events at one nesting *)

Lemma at_depth_app d l1 l2 : at_depth d (l1 ++ l2) = at_depth d l1 ++ at_depth d l2.
Proof. unfold at_depth. by rewrite filter_app, fmap_app. Qed.

Lemma at_depth_deeper d l :
  Forall (fun e => (S d <= e_depth e)%nat) l -> at_depth d l = [].
Proof.
  induction 1 as [| e l He _ IH]; [done |].
  unfold at_depth in *. rewrite filter_cons_False; [exact IH | lia].
Qed.

Lemma since_app (l ext : list entry) : since (length l) (l ++ ext) = ext.
Proof. unfold since. by rewrite drop_app_length. Qed.

(** What a wait adds is invisible at the nesting of the waiting code. *)
Lemma serve_wait_at_depth K fuel t s :
  exists ext,
    log (final (serve_wait K fuel t s)) = log s ++ ext /\
    Forall (fun e => (S (depth s) <= e_depth e)%nat) ext /\
    at_depth (depth s) ext = [].
Proof.
  destruct (serve_wait_ok K fuel t s) as [(ext & Hl & Hf) _].
  exists ext. split_and!; [done | done | by apply at_depth_deeper].
Qed.

End Facts.
Export Facts.

(** ** Which driver a program addresses *)

Module Drivers.

Lemma addresses_driver_app d l1 l2 :
  addresses_driver d l1 -> addresses_driver d l2 -> addresses_driver d (l1 ++ l2).
Proof.
  unfold addresses_driver, drivers. rewrite omap_app. apply Forall_app_2.
Qed.

Lemma addresses_driver_nil d : addresses_driver d [].
Proof. constructor. Qed.

Lemma at_depth_record d ev : at_depth d [Entry d ev] = [ev].
Proof. unfold at_depth. rewrite filter_cons_True by done. reflexivity. Qed.

Lemma handle_addresses K serve d {X : Type} (c : call X) s :
  serve_ok serve -> call_addresses d c ->
  exists ext,
    log (final (handle K serve c s)) = log s ++ ext /\
    addresses_driver d (at_depth (depth s) ext).
Proof.
  intros Hserve Hc.
  assert (Hone : forall ev, event_driver ev = None ->
            addresses_driver d (at_depth (depth s) [Entry (depth s) ev])).
  { intros ev Hev. rewrite at_depth_record. unfold addresses_driver, drivers.
    simpl. rewrite Hev. constructor. }
  destruct c; simpl in *.
  - exists [Entry (depth s) (EvMalloc size (k_malloc K (log s) size))].
    split; [| by apply Hone].
    unfold do_malloc. case_decide; [done |]. by destruct (mem _ !! _).
  - exists [Entry (depth s) (EvFree p)]. split; [| by apply Hone].
    unfold do_free. by repeat case_decide.
  - exists [Entry (depth s) (EvStrncpy dst src n)]. split; [| by apply Hone].
    unfold do_strncpy. case_decide; [done |].
    destruct (mem _ !! dst); [destruct (mem _ !! src) |]; try done.
    case_decide; [destruct (strncpy_bytes _ _) |]; done.
  - exists [Entry (depth s) (EvStrlen s0)]. split; [| by apply Hone].
    unfold do_strlen. case_decide; [done |].
    destruct (mem _ !! s0); [destruct (strlen_bytes _) |]; done.
  - eexists. split; [reflexivity |]. rewrite at_depth_record.
    subst. repeat constructor.
  - eexists. split; [reflexivity |]. rewrite at_depth_record.
    subst. repeat constructor.
  - eexists. split; [reflexivity |]. rewrite at_depth_record.
    subst. repeat constructor.
  - destruct (Hserve t (record (EvWaitFor t) s)) as [(ext & Hl & Hf) _].
    exists (Entry (depth s) (EvWaitFor t) :: ext). split.
    + rewrite Hl. simpl. by rewrite <- app_assoc.
    + change (Entry (depth s) (EvWaitFor t) :: ext)
        with ([Entry (depth s) (EvWaitFor t)] ++ ext).
      rewrite at_depth_app, (at_depth_deeper _ ext) by exact Hf.
      rewrite app_nil_r. by apply Hone.
  - exists []. split; [by rewrite app_nil_r | apply addresses_driver_nil].
Qed.

Lemma exec_addresses K serve d {A : Type} (p : prog A) s :
  serve_ok serve -> uses_only d p ->
  exists ext,
    log (final (exec K serve p s)) = log s ++ ext /\
    addresses_driver d (at_depth (depth s) ext).
Proof.
  intros Hserve Hp. revert s. induction Hp as [a | X c k Hc Hk IH]; intros s.
  - exists []. split; [by rewrite app_nil_r | apply addresses_driver_nil].
  - simpl. destruct (handle_addresses K serve d c s Hserve Hc) as (e1 & Hl1 & Ha1).
    destruct (handle_ok K serve c s Hserve) as [_ Hd].
    destruct (handle K serve c s) as [x s1 | s1 | s1 | s1] eqn:Hh; simpl in *;
      try (exists e1; by split).
    destruct (IH x s1) as (e2 & Hl2 & Ha2).
    rewrite (Hd x s1 eq_refl) in Ha2.
    exists (e1 ++ e2). split.
    + by rewrite Hl2, Hl1, app_assoc.
    + rewrite at_depth_app. by apply addresses_driver_app.
Qed.

(** The calls a program issues in any run name the driver its text names. *)
Lemma issued_addresses K fuel d {A : Type} (p : prog A) s :
  uses_only d p -> addresses_driver d (issued K fuel p s).
Proof.
  intros Hp. unfold issued, run.
  destruct (exec_addresses K (serve_wait K fuel) d p s (serve_wait_ok K fuel) Hp)
    as (ext & Hl & Ha).
  by rewrite Hl, since_app.
Qed.

End Drivers.
Export Drivers.

(** ** The SPI facade *)

Lemma to_int_same_bits (z : Z) : to_int z mod uint32_modulus = z mod uint32_modulus.
Proof.
  unfold to_int, uint32_modulus, int_half_modulus.
  destruct (Z.ltb_spec (z mod 2 ^ 32) (2 ^ 31)).
  - apply Z.mod_mod. lia.
  - rewrite <- (Z.mod_add _ 1) by lia.
    replace (z mod 2 ^ 32 - 2 ^ 32 + 1 * 2 ^ 32) with (z mod 2 ^ 32) by lia.
    apply Z.mod_mod. lia.
Qed.

Lemma to_int_small (z : Z) : 0 <= z < int_half_modulus -> to_int z = z.
Proof.
  unfold to_int, uint32_modulus, int_half_modulus. intros Hz.
  rewrite Z.mod_small by lia.
  destruct (Z.ltb_spec z (2 ^ 31)); lia.
Qed.

Lemma run_spi_write K fuel str len cb s :
  run K fuel (spi_write str len cb) s =
    (let r1 := k_allow K (log s) 4 1 str len in
     let s1 := record (EvAllow 4 1 str len r1) s in
     if r1 <? 0 then Done r1 s1
     else
       let r2 := k_subscribe K (log s1) 4 0 cb NULL in
       let s2 := record (EvSubscribe 4 0 cb NULL r2) s1 in
       if r2 <? 0 then Done r2 s2
       else
         let r3 := k_command K (log s2) 4 1 (to_int len) in
         Done r3 (record (EvCommand 4 1 (to_int len) r3) s2)).
Proof.
  unfold run, spi_write. cbn.
  destruct (k_allow K (log s) 4 1 str len <? 0); [reflexivity |]. cbn.
  destruct (k_subscribe K _ 4 0 cb NULL <? 0); reflexivity.
Qed.

Lemma run_spi_read_write K fuel write read len cb s :
  run K fuel (spi_read_write write read len cb) s =
    (let r := k_allow K (log s) 4 0 read len in
     let s1 := record (EvAllow 4 0 read len r) s in
     if r <? 0 then Done r s1 else run K fuel (spi_write write len cb) s1).
Proof.
  unfold run, spi_read_write. cbn.
  destruct (k_allow K (log s) 4 0 read len <? 0); reflexivity.
Qed.

(** C8: the SPI facade grants the read buffer with operation 0 of driver 4
    ([spi_read_buf]); [spi_write] grants the write buffer with operation 1
    and, each step only when the one before returned no negative status,
    subscribes (driver 4, event 0) and triggers the transfer with command
    operation 1, whose argument is the length converted to [int] (the same
    32 bits). *)
Theorem spi_operation_numbers K fuel str len cb s :
  run K fuel (spi_read_buf str len) s =
    (let r := k_allow K (log s) 4 0 str len in
     Done r (record (EvAllow 4 0 str len r) s))
  /\ run K fuel (spi_write str len cb) s =
    (let r1 := k_allow K (log s) 4 1 str len in
     let s1 := record (EvAllow 4 1 str len r1) s in
     if r1 <? 0 then Done r1 s1
     else
       let r2 := k_subscribe K (log s1) 4 0 cb NULL in
       let s2 := record (EvSubscribe 4 0 cb NULL r2) s1 in
       if r2 <? 0 then Done r2 s2
       else
         let r3 := k_command K (log s2) 4 1 (to_int len) in
         Done r3 (record (EvCommand 4 1 (to_int len) r3) s2))
  /\ to_int len mod uint32_modulus = len mod uint32_modulus.
Proof.
  split_and!.
  - reflexivity.
  - apply run_spi_write.
  - apply to_int_same_bits.
Qed.

Example spi_write_good :
  issued good_kernel 0 (spi_write 100 2 (FN_app 7)) hi_machine =
    [EvAllow 4 1 100 2 0; EvSubscribe 4 0 (FN_app 7) NULL 0; EvCommand 4 1 2 0].
Proof. reflexivity. Qed.

(** C5: when the grant of the read buffer returns a negative status,
    [spi_read_write] returns that status and the grant is the only call it
    made: no write-buffer grant, no subscribe, no transfer. *)
Theorem spi_read_write_read_grant_fails K fuel write read len cb s r :
  k_allow K (log s) 4 0 read len = r ->
  r < 0 ->
  run K fuel (spi_read_write write read len cb) s =
    Done r (record (EvAllow 4 0 read len r) s)
  /\ added K fuel (spi_read_write write read len cb) s =
       [Entry (depth s) (EvAllow 4 0 read len r)]
  /\ issued K fuel (spi_read_write write read len cb) s = [EvAllow 4 0 read len r].
Proof.
  intros Hr Hneg.
  assert (Hrun : run K fuel (spi_read_write write read len cb) s =
                 Done r (record (EvAllow 4 0 read len r) s)).
  { rewrite run_spi_read_write. cbn zeta. rewrite Hr.
    destruct (Z.ltb_spec r 0); [reflexivity | lia]. }
  split_and!.
  - exact Hrun.
  - unfold added. rewrite Hrun. simpl. apply since_app.
  - unfold issued. rewrite Hrun. simpl. rewrite since_app. apply at_depth_record.
Qed.

Lemma spi_read_write_read_grant_fails_witness :
  run refusing_kernel 0 (spi_read_write 100 200 2 (FN_app 0)) hi_machine =
    Done (-1) (record (EvAllow 4 0 200 2 (-1)) hi_machine)
  /\ added refusing_kernel 0 (spi_read_write 100 200 2 (FN_app 0)) hi_machine =
       [Entry 0 (EvAllow 4 0 200 2 (-1))]
  /\ issued refusing_kernel 0 (spi_read_write 100 200 2 (FN_app 0)) hi_machine =
       [EvAllow 4 0 200 2 (-1)].
Proof.
  apply (spi_read_write_read_grant_fails refusing_kernel 0 100 200 2 (FN_app 0)
           hi_machine (-1)).
  - reflexivity.
  - lia.
Defined.

(** *** Reading the log of a run that is known *)

Lemma at_depth_cons_same d ev l : at_depth d (Entry d ev :: l) = ev :: at_depth d l.
Proof. unfold at_depth. rewrite filter_cons_True by done. reflexivity. Qed.

Lemma at_depth_nil d : at_depth d [] = [].
Proof. reflexivity. Qed.

Lemma log_record ev s : log (record ev s) = log s ++ [Entry (depth s) ev].
Proof. reflexivity. Qed.

Lemma depth_record ev s : depth (record ev s) = depth s.
Proof. reflexivity. Qed.

Ltac read_log :=
  cbn [final];
  rewrite ?log_record, ?depth_record, <- ?app_assoc, ?since_app;
  cbn [app];
  rewrite ?at_depth_cons_same, ?at_depth_nil.

Lemma issued_spi_write K fuel str len cb s :
  issued K fuel (spi_write str len cb) s =
    (let r1 := k_allow K (log s) 4 1 str len in
     let s1 := record (EvAllow 4 1 str len r1) s in
     if r1 <? 0 then [EvAllow 4 1 str len r1]
     else
       let r2 := k_subscribe K (log s1) 4 0 cb NULL in
       let s2 := record (EvSubscribe 4 0 cb NULL r2) s1 in
       if r2 <? 0 then [EvAllow 4 1 str len r1; EvSubscribe 4 0 cb NULL r2]
       else [EvAllow 4 1 str len r1; EvSubscribe 4 0 cb NULL r2;
             EvCommand 4 1 (to_int len) (k_command K (log s2) 4 1 (to_int len))]).
Proof.
  unfold issued. rewrite run_spi_write. cbn zeta.
  destruct (_ <? 0); [by read_log |].
  destruct (_ <? 0); by read_log.
Qed.

Lemma added_spi_write K fuel str len cb s :
  added K fuel (spi_write str len cb) s =
    Entry (depth s) <$> issued K fuel (spi_write str len cb) s.
Proof.
  rewrite issued_spi_write. unfold added. rewrite run_spi_write. cbn zeta.
  destruct (_ <? 0); [by read_log |].
  destruct (_ <? 0); by read_log.
Qed.

Lemma spi_write_propagates K fuel str len cb s :
  aborts_on_failure K fuel (spi_write str len cb) s /\
  returns_failure K fuel (spi_write str len cb) s.
Proof.
  unfold aborts_on_failure, returns_failure.
  rewrite issued_spi_write, run_spi_write. cbn zeta.
  destruct (Z.ltb_spec (k_allow K (log s) 4 1 str len) 0) as [H1 | H1].
  { split; intros [| ? [| ? ?]] ev rest r Heq Hev Hr; simplify_eq/=; eauto. }
  destruct (Z.ltb_spec (k_subscribe K (log (record (EvAllow 4 1 str len
             (k_allow K (log s) 4 1 str len)) s)) 4 0 cb NULL) 0) as [H2 | H2].
  { split; intros [| ? [| ? [| ? ?]]] ev rest r Heq Hev Hr; simplify_eq/=; eauto; lia. }
  split; intros [| ? [| ? [| ? [| ? ?]]]] ev rest r Heq Hev Hr; simplify_eq/=; eauto; lia.
Qed.

Lemma issued_spi_read_write K fuel write read len cb s :
  issued K fuel (spi_read_write write read len cb) s =
    (let r := k_allow K (log s) 4 0 read len in
     let s1 := record (EvAllow 4 0 read len r) s in
     if r <? 0 then [EvAllow 4 0 read len r]
     else EvAllow 4 0 read len r :: issued K fuel (spi_write write len cb) s1).
Proof.
  unfold issued at 1. rewrite run_spi_read_write. cbn zeta.
  destruct (_ <? 0); [by read_log |].
  pose proof (added_spi_write K fuel write len cb
                (record (EvAllow 4 0 read len (k_allow K (log s) 4 0 read len)) s)) as Ha.
  destruct (run_ok K fuel (spi_write write len cb)
              (record (EvAllow 4 0 read len (k_allow K (log s) 4 0 read len)) s))
    as [(ext & Hl & _) _].
  unfold added in Ha. rewrite Hl, since_app in Ha.
  rewrite Hl. read_log. rewrite Ha, depth_record.
  generalize (issued K fuel (spi_write write len cb)
                (record (EvAllow 4 0 read len (k_allow K (log s) 4 0 read len)) s)).
  intros l. f_equal. induction l as [| ev l IH]; [done |].
  cbn [fmap list_fmap]. by rewrite at_depth_cons_same, IH.
Qed.

Lemma spi_read_write_propagates K fuel write read len cb s :
  aborts_on_failure K fuel (spi_read_write write read len cb) s /\
  returns_failure K fuel (spi_read_write write read len cb) s.
Proof.
  unfold aborts_on_failure, returns_failure.
  rewrite issued_spi_read_write, run_spi_read_write. cbn zeta.
  destruct (Z.ltb_spec (k_allow K (log s) 4 0 read len) 0) as [H1 | H1].
  { split; intros [| ? [| ? ?]] ev rest r Heq Hev Hr; simplify_eq/=; eauto. }
  destruct (spi_write_propagates K fuel write len cb
              (record (EvAllow 4 0 read len (k_allow K (log s) 4 0 read len)) s))
    as [Ha Hr].
  split; intros [| e0 pre] ev rest r Heq Hev Hneg; simplify_eq/=; try lia.
  - eapply Ha; eauto.
  - eapply Hr; eauto.
Qed.

(** ** Waiting *)

(** A wait that returns was ended by a callback that yielded the tag. *)
Lemma serve_wait_done K fuel t s u s' :
  serve_wait K fuel t s = Done u s' ->
  exists pre, log s' = log s ++ pre ++ [Entry (S (depth s)) (EvLeave t)].
Proof.
  revert s. induction fuel as [| fuel IH]; intros s; simpl; [discriminate |].
  destruct (k_yield K (log s)) as [[[cb [[x y] z]] ud] |]; [| discriminate].
  destruct (exec_ok K (serve_wait K fuel) (cb_code cb x y z ud) (enter cb x y z ud s)
              (serve_wait_ok K fuel)) as [(ext & Hl & _) _].
  destruct (exec K (serve_wait K fuel) (cb_code cb x y z ud) (enter cb x y z ud s))
    as [tag s1 | s1 | s1 | s1]; try discriminate.
  simpl in Hl. case_decide as Ht.
  - intros [= <- <-]. subst tag. simpl. rewrite Hl.
    exists (Entry (S (depth s)) (EvEnter cb x y z ud) :: ext).
    by rewrite <- !app_assoc.
  - intros Hw. destruct (IH _ Hw) as (pre & Hpre). simpl in Hpre.
    rewrite Hpre, Hl.
    exists ((Entry (S (depth s)) (EvEnter cb x y z ud) :: ext)
              ++ Entry (S (depth s)) (EvLeave tag) :: pre).
    by rewrite <- !app_assoc.
Qed.

Lemma last_snoc_entry (l : list entry) (e : entry) : last (l ++ [e]) = Some e.
Proof. apply last_snoc. Qed.

(** ** The timer facade *)

Lemma run_delay_ms K fuel ms s :
  run K fuel (delay_ms ms) s =
    (let r1 := k_subscribe K (log s) 3 0 FN_delay_cb NULL in
     let s1 := record (EvSubscribe 3 0 FN_delay_cb NULL r1) s in
     let r2 := k_command K (log s1) 3 0 (to_int ms) in
     let s2 := record (EvCommand 3 0 (to_int ms) r2) s1 in
     serve_wait K fuel DELAY (record (EvWaitFor DELAY) s2)).
Proof.
  unfold run, delay_ms, timer_subscribe, timer_oneshot. cbn.
  by destruct (serve_wait K fuel DELAY _).
Qed.

Lemma issued_delay_ms K fuel ms s :
  issued K fuel (delay_ms ms) s =
    (let r1 := k_subscribe K (log s) 3 0 FN_delay_cb NULL in
     let s1 := record (EvSubscribe 3 0 FN_delay_cb NULL r1) s in
     let r2 := k_command K (log s1) 3 0 (to_int ms) in
     [EvSubscribe 3 0 FN_delay_cb NULL r1; EvCommand 3 0 (to_int ms) r2; EvWaitFor DELAY]).
Proof.
  unfold issued. rewrite run_delay_ms. cbn zeta.
  match goal with
  | |- context [serve_wait K fuel DELAY ?s3] =>
      destruct (serve_wait_at_depth K fuel DELAY s3) as (ext & Hl & _ & Hd)
  end.
  rewrite Hl. read_log. rewrite !depth_record in Hd.
  repeat (rewrite at_depth_cons_same). by rewrite Hd.
Qed.

(** C7: for every interval, [delay_ms] subscribes [delay_cb] to event 0 of
    the timer, triggers the one-shot (command 0) with the interval converted
    to [int] (the same 32 bits), then waits for [DELAY]; these three are
    all the calls it makes itself, none of them a [malloc], an [allow] or a
    [free]; [delay_cb] touches nothing and yields [DELAY]; and when
    [delay_ms] returns, the last thing that happened is a callback yielding
    [DELAY]. *)
Theorem delay_ms_composition K fuel ms s :
  run K fuel (delay_ms ms) s =
    (let r1 := k_subscribe K (log s) 3 0 FN_delay_cb NULL in
     let s1 := record (EvSubscribe 3 0 FN_delay_cb NULL r1) s in
     let r2 := k_command K (log s1) 3 0 (to_int ms) in
     let s2 := record (EvCommand 3 0 (to_int ms) r2) s1 in
     serve_wait K fuel DELAY (record (EvWaitFor DELAY) s2))
  /\ issued K fuel (delay_ms ms) s =
    (let r1 := k_subscribe K (log s) 3 0 FN_delay_cb NULL in
     let s1 := record (EvSubscribe 3 0 FN_delay_cb NULL r1) s in
     let r2 := k_command K (log s1) 3 0 (to_int ms) in
     [EvSubscribe 3 0 FN_delay_cb NULL r1; EvCommand 3 0 (to_int ms) r2; EvWaitFor DELAY])
  /\ to_int ms mod uint32_modulus = ms mod uint32_modulus
  /\ (forall x y z ud s0, run K fuel (delay_cb x y z ud) s0 = Done DELAY s0)
  /\ match run K fuel (delay_ms ms) s with
     | Done _ s' => last (log s') = Some (Entry (S (depth s)) (EvLeave DELAY))
     | _ => True
     end.
Proof.
  split_and!.
  - apply run_delay_ms.
  - apply issued_delay_ms.
  - apply to_int_same_bits.
  - reflexivity.
  - rewrite run_delay_ms. cbn zeta.
    match goal with |- context [serve_wait K fuel DELAY ?m] => remember m as s3 eqn:Hs3 end.
    destruct (serve_wait K fuel DELAY s3) as [u s' | | |] eqn:Hw; try done.
    destruct (serve_wait_done _ _ _ _ _ _ Hw) as (pre & Hpre).
    rewrite Hpre, app_assoc, Hs3. apply last_snoc_entry.
Qed.

Example delay_ms_zero :
  run good_kernel 1 (delay_ms 0) hi_machine =
    Done tt (Mk (mem hi_machine) ∅ 0
               [Entry 0 (EvSubscribe 3 0 FN_delay_cb NULL 0);
                Entry 0 (EvCommand 3 0 0 0);
                Entry 0 (EvWaitFor DELAY);
                Entry 1 (EvEnter FN_delay_cb 0 0 0 NULL);
                Entry 1 (EvLeave DELAY)]).
Proof. reflexivity. Qed.

(** ** The console facade without the wait, and the serial co-processor *)

Lemma run_putnstr_async K fuel str len cb ud s :
  run K fuel (putnstr_async str len cb ud) s =
    (let r1 := k_allow K (log s) 0 1 str len in
     let s1 := record (EvAllow 0 1 str len r1) s in
     let r2 := k_subscribe K (log s1) 0 1 cb ud in
     Done tt (record (EvSubscribe 0 1 cb ud r2) s1)).
Proof. reflexivity. Qed.

Lemma issued_putnstr_async K fuel str len cb ud s :
  issued K fuel (putnstr_async str len cb ud) s =
    (let r1 := k_allow K (log s) 0 1 str len in
     let s1 := record (EvAllow 0 1 str len r1) s in
     [EvAllow 0 1 str len r1; EvSubscribe 0 1 cb ud (k_subscribe K (log s1) 0 1 cb ud)]).
Proof. unfold issued. rewrite run_putnstr_async. cbn zeta. by read_log. Qed.

Lemma run_serialization_write K fuel tx tx_len s :
  run K fuel (nrf51822_serialization_write tx tx_len) s =
    (let r1 := k_allow K (log s) 5 1 tx (to_size_t tx_len) in
     let s1 := record (EvAllow 5 1 tx (to_size_t tx_len) r1) s in
     let r2 := k_command K (log s1) 5 0 0 in
     Done tt (record (EvCommand 5 0 0 r2) s1)).
Proof. reflexivity. Qed.

(** C10: [nrf51822_serialization_write] grants the TX buffer (driver 5,
    operation 1) and then always issues the transmit command (driver 5,
    operation 0, argument 0), whatever status the grant returned; the three
    serialization functions return no value, so every status the kernel
    returned to them is dropped. *)
Theorem serialization_discards_status K fuel cb rx rx_len tx tx_len s :
  run K fuel (nrf51822_serialization_write tx tx_len) s =
    (let r1 := k_allow K (log s) 5 1 tx (to_size_t tx_len) in
     let s1 := record (EvAllow 5 1 tx (to_size_t tx_len) r1) s in
     let r2 := k_command K (log s1) 5 0 0 in
     Done tt (record (EvCommand 5 0 0 r2) s1))
  /\ issued K fuel (nrf51822_serialization_write tx tx_len) s =
    (let r1 := k_allow K (log s) 5 1 tx (to_size_t tx_len) in
     let s1 := record (EvAllow 5 1 tx (to_size_t tx_len) r1) s in
     [EvAllow 5 1 tx (to_size_t tx_len) r1; EvCommand 5 0 0 (k_command K (log s1) 5 0 0)])
  /\ run K fuel (nrf51822_serialization_subscribe cb) s =
    (let r := k_subscribe K (log s) 5 0 cb NULL in
     Done tt (record (EvSubscribe 5 0 cb NULL r) s))
  /\ run K fuel (nrf51822_serialization_setup_rx_buffer rx rx_len) s =
    (let r := k_allow K (log s) 5 0 rx (to_size_t rx_len) in
     Done tt (record (EvAllow 5 0 rx (to_size_t rx_len) r) s)).
Proof.
  split_and!; try reflexivity.
  unfold issued. rewrite run_serialization_write. cbn zeta. by read_log.
Qed.

Example serialization_write_refused :
  issued refusing_kernel 0 (nrf51822_serialization_write 100 3) hi_machine =
    [EvAllow 5 1 100 3 (-1); EvCommand 5 0 0 0].
Proof. reflexivity. Qed.

(** ** The blocking SPI write *)

(** C2, as stated, fails: on a kernel where every call succeeds,
    [spi_block_write] returns and has not waited for [SPIBUF]. *)
Lemma spi_block_write_does_not_wait :
  ~ waits_before_return good_kernel 5 (spi_block_write 100 2) hi_machine SPIBUF.
Proof.
  intros H.
  assert (Hi : issued good_kernel 5 (spi_block_write 100 2) hi_machine =
               [EvAllow 4 1 100 2 0; EvSubscribe 4 0 FN_spi_cb NULL 0; EvCommand 4 1 2 0])
    by reflexivity.
  specialize (H 0 (final (run good_kernel 5 (spi_block_write 100 2) hi_machine)) eq_refl).
  rewrite Hi in H. simpl in H. intuition discriminate.
Qed.

(** C2, amended: [spi_block_write] is [spi_write] with [spi_cb] as the
    callback (grant of the write buffer, subscribe, transfer trigger, each
    step only after the one before returned no negative status) and returns
    the status of that composition at once: it never suspends, no callback
    runs before it returns, and it issues no wait. *)
Theorem spi_block_write_returns_at_once K fuel str len s :
  run K fuel (spi_block_write str len) s =
    (let r1 := k_allow K (log s) 4 1 str len in
     let s1 := record (EvAllow 4 1 str len r1) s in
     if r1 <? 0 then Done r1 s1
     else
       let r2 := k_subscribe K (log s1) 4 0 FN_spi_cb NULL in
       let s2 := record (EvSubscribe 4 0 FN_spi_cb NULL r2) s1 in
       if r2 <? 0 then Done r2 s2
       else
         let r3 := k_command K (log s2) 4 1 (to_int len) in
         Done r3 (record (EvCommand 4 1 (to_int len) r3) s2))
  /\ never_suspends K fuel (spi_block_write str len) s
  /\ ~ In (EvWaitFor SPIBUF) (issued K fuel (spi_block_write str len) s).
Proof.
  unfold spi_block_write. split_and!.
  - apply run_spi_write.
  - unfold never_suspends. rewrite added_spi_write, issued_spi_write, run_spi_write.
    cbn zeta. destruct (_ <? 0); [| destruct (_ <? 0)];
      (split; [eauto | repeat constructor]).
  - rewrite issued_spi_write. cbn zeta.
    destruct (_ <? 0); [| destruct (_ <? 0)]; simpl; intuition discriminate.
Qed.

(** ** Failures of the kernel calls *)

(** C3, as stated, fails: [putnstr_async] subscribes although the [allow]
    before it returned a negative status. *)
Lemma putnstr_async_ignores_failure :
  ~ aborts_on_failure refusing_kernel 0 (putnstr_async 100 2 (FN_app 0) NULL) hi_machine.
Proof.
  intros H.
  specialize (H [] (EvAllow 0 1 100 2 (-1)) [EvSubscribe 0 1 (FN_app 0) NULL 0] (-1)
                eq_refl eq_refl ltac:(lia)).
  discriminate H.
Qed.

(** C3, amended: the SPI compositions ([spi_write], [spi_read_write],
    [spi_block_write]) stop at the first kernel call that returns a negative
    status and return that status unchanged.  The console, timer-delay and
    serial co-processor compositions return no status and issue every step
    whatever the kernel returned. *)
Theorem failures_propagate_in_spi K fuel write read str len cb ud ms tx tx_len s :
  (aborts_on_failure K fuel (spi_write str len cb) s /\
   returns_failure K fuel (spi_write str len cb) s)
  /\ (aborts_on_failure K fuel (spi_read_write write read len cb) s /\
      returns_failure K fuel (spi_read_write write read len cb) s)
  /\ (aborts_on_failure K fuel (spi_block_write str len) s /\
      returns_failure K fuel (spi_block_write str len) s)
  /\ run K fuel (putnstr_async str len cb ud) s =
       (let r1 := k_allow K (log s) 0 1 str len in
        let s1 := record (EvAllow 0 1 str len r1) s in
        let r2 := k_subscribe K (log s1) 0 1 cb ud in
        Done tt (record (EvSubscribe 0 1 cb ud r2) s1))
  /\ issued K fuel (delay_ms ms) s =
       (let r1 := k_subscribe K (log s) 3 0 FN_delay_cb NULL in
        let s1 := record (EvSubscribe 3 0 FN_delay_cb NULL r1) s in
        let r2 := k_command K (log s1) 3 0 (to_int ms) in
        [EvSubscribe 3 0 FN_delay_cb NULL r1; EvCommand 3 0 (to_int ms) r2; EvWaitFor DELAY])
  /\ run K fuel (nrf51822_serialization_write tx tx_len) s =
       (let r1 := k_allow K (log s) 5 1 tx (to_size_t tx_len) in
        let s1 := record (EvAllow 5 1 tx (to_size_t tx_len) r1) s in
        let r2 := k_command K (log s1) 5 0 0 in
        Done tt (record (EvCommand 5 0 0 r2) s1)).
Proof.
  split; [apply spi_write_propagates |].
  split; [apply spi_read_write_propagates |].
  split; [apply (spi_write_propagates K fuel str len FN_spi_cb s) |].
  split_and!.
  - apply run_putnstr_async.
  - apply issued_delay_ms.
  - apply run_serialization_write.
Qed.

(** ** Driver numbers *)

Ltac prove_uses_only :=
  repeat first
    [ apply uses_ret
    | apply uses_vis; [simpl; done | intros ?]
    | match goal with
      | |- uses_only _ (if ?b then _ else _) => destruct b
      end
    | progress cbn ].

Lemma uses_spi_write str len cb : uses_only 4 (spi_write str len cb).
Proof. unfold spi_write. prove_uses_only. Qed.

Lemma uses_putnstr str len : uses_only 0 (putnstr str len).
Proof. unfold putnstr, putnstr_async. prove_uses_only. Qed.

(** C4, as stated, fails: the calls of the console facade name driver 0,
    not driver 1. *)
Lemma console_is_not_driver_1 :
  ~ addresses_driver 1 (issued good_kernel 0 (putnstr_async 100 2 (FN_app 0) NULL) hi_machine).
Proof.
  intros H.
  assert (Hd : drivers (issued good_kernel 0 (putnstr_async 100 2 (FN_app 0) NULL) hi_machine)
               = [0; 0]) by reflexivity.
  unfold addresses_driver in H. rewrite Hd in H.
  apply Forall_cons_1 in H as [H _]. discriminate H.
Qed.

(** C4, amended: every [allow], [subscribe] and [command] issued by the
    console facade names driver 0 (with operation and event number 1), by
    the timer facade driver 3, by the SPI facade driver 4 and by the
    serialization facade driver 5. *)
Theorem facade_driver_numbers K fuel str len cb ud interval byte write read
    rx rx_len tx tx_len s :
  (addresses_driver 0 (issued K fuel (putnstr_async str len cb ud) s) /\
   addresses_driver 0 (issued K fuel (putnstr str len) s) /\
   addresses_driver 0 (issued K fuel (putstr str) s))
  /\ (addresses_driver 3 (issued K fuel (timer_subscribe cb ud) s) /\
      addresses_driver 3 (issued K fuel (timer_oneshot interval) s) /\
      addresses_driver 3 (issued K fuel (timer_start_repeating interval) s) /\
      addresses_driver 3 (issued K fuel (delay_ms interval) s))
  /\ (addresses_driver 4 (issued K fuel (spi_write_byte byte) s) /\
      addresses_driver 4 (issued K fuel (spi_read_buf str len) s) /\
      addresses_driver 4 (issued K fuel (spi_write str len cb) s) /\
      addresses_driver 4 (issued K fuel (spi_read_write write read len cb) s) /\
      addresses_driver 4 (issued K fuel (spi_block_write str len) s))
  /\ (addresses_driver 5 (issued K fuel (nrf51822_serialization_subscribe cb) s) /\
      addresses_driver 5 (issued K fuel (nrf51822_serialization_setup_rx_buffer rx rx_len) s) /\
      addresses_driver 5 (issued K fuel (nrf51822_serialization_write tx tx_len) s))
  /\ issued K fuel (putnstr_async str len cb ud) s =
       (let r1 := k_allow K (log s) 0 1 str len in
        let s1 := record (EvAllow 0 1 str len r1) s in
        [EvAllow 0 1 str len r1; EvSubscribe 0 1 cb ud (k_subscribe K (log s1) 0 1 cb ud)]).
Proof.
  split_and!; try (apply issued_addresses).
  - unfold putnstr_async. prove_uses_only.
  - apply uses_putnstr.
  - unfold putstr. apply uses_vis; [done | intros n]. apply uses_putnstr.
  - unfold timer_subscribe. prove_uses_only.
  - unfold timer_oneshot. prove_uses_only.
  - unfold timer_start_repeating. prove_uses_only.
  - unfold delay_ms, timer_subscribe, timer_oneshot. prove_uses_only.
  - unfold spi_write_byte. prove_uses_only.
  - unfold spi_read_buf. prove_uses_only.
  - apply uses_spi_write.
  - unfold spi_read_write. apply uses_vis; [done | intros err].
    destruct (err <? 0); [apply uses_ret | apply uses_spi_write].
  - apply uses_spi_write.
  - unfold nrf51822_serialization_subscribe. prove_uses_only.
  - unfold nrf51822_serialization_setup_rx_buffer. prove_uses_only.
  - unfold nrf51822_serialization_write. prove_uses_only.
  - apply issued_putnstr_async.
Qed.

Example putnstr_drivers :
  drivers (issued good_kernel 5 (putnstr 100 2) hi_machine) = [0; 0].
Proof. reflexivity. Qed.

Example delay_ms_drivers :
  drivers (issued good_kernel 5 (delay_ms 10) hi_machine) = [3; 3].
Proof. reflexivity. Qed.

(** ** The callbacks *)

Lemma run_putstr_cb K fuel x y z ud s :
  run K fuel (putstr_cb x y z ud) s =
    outcome_bind (do_free ud s) (fun _ s1 => Done PUTSTR s1).
Proof.
  unfold run, putstr_cb. cbn. by destruct (do_free ud s).
Qed.

Lemma do_free_live p s :
  p <> NULL -> p ∈ live s ->
  do_free p s =
    Done tt (Mk (delete p (mem s)) (live s ∖ {[p]}) (depth s)
                (log s ++ [Entry (depth s) (EvFree p)])).
Proof.
  intros Hp Hl. unfold do_free. simpl.
  rewrite decide_False by done. by rewrite decide_True by done.
Qed.

Lemma not_elem_of_removed (p : Z) (X : gset Z) : p ∉ X ∖ {[p]}.
Proof. intros [_ Hn]%elem_of_difference. apply Hn. by apply elem_of_singleton. Qed.

Lemma do_free_dangling p s :
  p <> NULL -> p ∉ live s -> do_free p s = Fault (record (EvFree p) s).
Proof.
  intros Hp Hl. unfold do_free. simpl.
  rewrite decide_False by done. by rewrite decide_False by done.
Qed.

(** One step of a wait: the callback the kernel delivers runs; the wait ends
    if it yields the tag waited for and goes on otherwise. *)
Lemma serve_wait_step K fuel t s cb x y z ud tag s1 :
  k_yield K (log s) = Some (cb, (x, y, z), ud) ->
  run K fuel (cb_code cb x y z ud) (enter cb x y z ud s) = Done tag s1 ->
  serve_wait K (S fuel) t s =
    if decide (tag = t) then Done tt (leave (depth s) tag s1)
    else serve_wait K fuel t (leave (depth s) tag s1).
Proof.
  intros Hy Hr. simpl. rewrite Hy. unfold run in Hr. by rewrite Hr.
Qed.

(** C9: whatever the three integers the kernel supplies, [putstr_cb] yields
    [PUTSTR] whenever it returns (and it returns when its user data is null
    or a live heap block), [delay_cb] yields [DELAY] and [spi_cb] yields
    [SPIBUF]; the three tags are pairwise distinct; a wait for a tag goes
    on after a callback of firestorm.c written for another tag has run; and
    a wait that returns was ended by a callback that yielded its tag. *)
Theorem callback_tags_fixed K fuel x y z ud s :
  (forall t s', run K fuel (putstr_cb x y z ud) s = Done t s' -> t = PUTSTR)
  /\ (ud = NULL \/ ud ∈ live s -> exists s', run K fuel (putstr_cb x y z ud) s = Done PUTSTR s')
  /\ run K fuel (delay_cb x y z ud) s = Done DELAY s
  /\ run K fuel (spi_cb x y z ud) s = Done SPIBUF s
  /\ (PUTSTR <> DELAY /\ PUTSTR <> SPIBUF /\ DELAY <> SPIBUF)
  /\ (forall cb own t tag s1,
        tag_of cb = Some own -> own <> t ->
        k_yield K (log s) = Some (cb, (x, y, z), ud) ->
        run K fuel (cb_code cb x y z ud) (enter cb x y z ud s) = Done tag s1 ->
        tag = own /\
        serve_wait K (S fuel) t s = serve_wait K fuel t (leave (depth s) tag s1))
  /\ (forall t u s',
        serve_wait K fuel t s = Done u s' ->
        last (log s') = Some (Entry (S (depth s)) (EvLeave t))).
Proof.
  split_and!; try reflexivity; try discriminate.
  - intros t s'. rewrite run_putstr_cb.
    destruct (do_free ud s); simpl; congruence.
  - intros Hud. rewrite run_putstr_cb. unfold do_free. simpl.
    destruct Hud as [-> | Hl].
    + rewrite decide_True by done. simpl. eauto.
    + case_decide; [simpl; eauto |]. rewrite decide_True by done. simpl. eauto.
  - intros cb own t tag s1 Hown Hne Hy Hr.
    assert (Htag : tag = own).
    { destruct cb; simpl in Hown; try discriminate; injection Hown as <-;
        unfold cb_code in Hr.
      - rewrite run_putstr_cb in Hr. destruct (do_free _ _); simpl in Hr; congruence.
      - unfold run in Hr. simpl in Hr. congruence.
      - unfold run in Hr. simpl in Hr. congruence. }
    split; [exact Htag |].
    rewrite (serve_wait_step K fuel t s cb x y z ud tag s1 Hy Hr).
    rewrite decide_False by congruence. reflexivity.
  - intros t u s' Hw. destruct (serve_wait_done _ _ _ _ _ _ Hw) as (pre & ->).
    rewrite app_assoc. apply last_snoc_entry.
Qed.

Lemma callback_tags_fixed_witness :
  serve_wait (repeating_kernel FN_delay_cb NULL) 3 PUTSTR hi_machine =
  serve_wait (repeating_kernel FN_delay_cb NULL) 2 PUTSTR
    (leave 0 DELAY (enter FN_delay_cb 0 0 0 NULL hi_machine))
  /\ exists s', run good_kernel 0 (putstr_cb 1 2 3 4096) heap_machine = Done PUTSTR s'.
Proof.
  destruct (callback_tags_fixed (repeating_kernel FN_delay_cb NULL) 2 0 0 0 NULL hi_machine)
    as (_ & _ & _ & _ & _ & Hwait & _).
  destruct (callback_tags_fixed good_kernel 0 1 2 3 4096 heap_machine)
    as (_ & Hret & _).
  split.
  - apply (Hwait FN_delay_cb DELAY PUTSTR DELAY
             (enter FN_delay_cb 0 0 0 NULL hi_machine)).
    + reflexivity.
    + discriminate.
    + reflexivity.
    + reflexivity.
  - apply Hret. right. simpl. by apply elem_of_singleton.
Defined.

(** A console callback that fires first does not end a wait for the timer. *)
Example delay_not_ended_by_console :
  serve_wait (repeating_kernel FN_putstr_cb NULL) 7 DELAY hi_machine =
    OutOfFuel (final (serve_wait (repeating_kernel FN_putstr_cb NULL) 7 DELAY hi_machine))
  /\ at_depth 1 (log (final (serve_wait (repeating_kernel FN_putstr_cb NULL) 2 DELAY hi_machine)))
     = [EvEnter FN_putstr_cb 0 0 0 NULL; EvFree NULL; EvLeave PUTSTR;
        EvEnter FN_putstr_cb 0 0 0 NULL; EvFree NULL; EvLeave PUTSTR].
Proof. split; vm_compute; reflexivity. Qed.

(** ** A duplicate completion callback *)

(** C6, as stated, fails: a second invocation of [putstr_cb] on the buffer
    it has already freed is not a no-op. *)
Lemma duplicate_callback_is_not_noop :
  ~ duplicate_is_noop good_kernel 0 4096 heap_machine.
Proof.
  intros H.
  destruct (H 0 0 0 (final (run good_kernel 0 (putstr_cb 0 0 0 4096) heap_machine)) eq_refl)
    as (s2 & Hrun & _).
  vm_compute in Hrun. discriminate Hrun.
Qed.

(** C6, amended: [putstr_cb] passes its user data to [free] on every
    invocation.  Invoked on a live buffer it releases the buffer and yields
    [PUTSTR]; invoked once more on the same buffer it calls [free] on it a
    second time, which is a double free and not a no-op. *)
Theorem putstr_cb_frees_every_time K fuel x y z x' y' z' buf s :
  buf <> NULL ->
  buf ∈ live s ->
  exists s1,
    run K fuel (putstr_cb x y z buf) s = Done PUTSTR s1
    /\ (buf ∉ live s1)
    /\ log s1 = log s ++ [Entry (depth s) (EvFree buf)]
    /\ run K fuel (putstr_cb x' y' z' buf) s1 = Fault (record (EvFree buf) s1)
    /\ frees buf (log (final (run K fuel (putstr_cb x' y' z' buf) s1))) =
       S (S (frees buf (log s))).
Proof.
  intros Hnull Hlive.
  eexists. split; [| split_and!].
  - rewrite run_putstr_cb, (do_free_live _ _ Hnull Hlive). simpl. reflexivity.
  - simpl. apply not_elem_of_removed.
  - reflexivity.
  - rewrite run_putstr_cb, do_free_dangling; [reflexivity | done |].
    simpl. apply not_elem_of_removed.
  - rewrite run_putstr_cb, do_free_dangling;
      [| done | simpl; apply not_elem_of_removed].
    simpl. unfold frees, count. rewrite !List.filter_app, !length_app. simpl.
    unfold is_free_of. simpl. rewrite bool_decide_true by done. simpl. lia.
Qed.

Lemma putstr_cb_frees_every_time_witness :
  exists s1,
    run good_kernel 0 (putstr_cb 0 0 0 4096) heap_machine = Done PUTSTR s1
    /\ (4096 ∉ live s1)
    /\ log s1 = log heap_machine ++ [Entry (depth heap_machine) (EvFree 4096)]
    /\ run good_kernel 0 (putstr_cb 0 0 0 4096) s1 = Fault (record (EvFree 4096) s1)
    /\ frees 4096 (log (final (run good_kernel 0 (putstr_cb 0 0 0 4096) s1))) =
       S (S (frees 4096 (log heap_machine))).
Proof.
  apply (putstr_cb_frees_every_time good_kernel 0 0 0 0 0 0 0 4096 heap_machine).
  - discriminate.
  - simpl. by apply elem_of_singleton.
Defined.

(** A kernel that delivers the completion of a print twice: the second
    delivery, met while waiting for the timer, frees the buffer again. *)
Example duplicate_delivery_double_free :
  let o := run (repeating_kernel FN_putstr_cb 4096) 5 (putnstr 100 2;; delay_ms 5) hi_machine in
  o = Fault (final o) /\ frees 4096 (log (final o)) = 2%nat.
Proof. split; vm_compute; reflexivity. Qed.

(** ** The blocking print *)

Lemma size_mul_char len : is_size_t len -> size_mul len sizeof_char = len.
Proof.
  unfold is_size_t, size_mul, to_size_t, sizeof_char. intros H.
  rewrite Z.mul_1_r. by apply Z.mod_small.
Qed.



Lemma run_putnstr K fuel str len s :
  run K fuel (putnstr str len) s =
    outcome_bind (run K fuel (putnstr_copy str len) s) (fun buf s2 =>
      let r1 := k_allow K (log s2) 0 1 buf len in
      let s3 := record (EvAllow 0 1 buf len r1) s2 in
      let r2 := k_subscribe K (log s3) 0 1 FN_putstr_cb buf in
      let s4 := record (EvSubscribe 0 1 FN_putstr_cb buf r2) s3 in
      serve_wait K fuel PUTSTR (record (EvWaitFor PUTSTR) s4)).
Proof.
  unfold run, putnstr, putnstr_copy, putnstr_async. cbn.
  destruct (do_malloc K _ s) as [buf s1 | | |]; simpl; try reflexivity.
  destruct (do_strncpy buf str len s1) as [[] s2 | | |]; simpl; try reflexivity.
  by destruct (serve_wait K fuel PUTSTR _).
Qed.

(** The copy, when it succeeds: a fresh block that holds what [strncpy]
    wrote, while the caller's object is as it was. *)
Lemma run_putnstr_copy K fuel str len sb s buf s2 :
  is_size_t len ->
  mem s !! str = Some sb ->
  run K fuel (putnstr_copy str len) s = Done buf s2 ->
  exists w,
    buf = k_malloc K (log s) len
    /\ buf <> NULL
    /\ mem s !! buf = None
    /\ strncpy_bytes sb (Z.to_nat len) = Some w
    /\ mem s2 = <[buf := w]> (mem s)
    /\ live s2 = {[buf]} ∪ live s
    /\ depth s2 = depth s
    /\ log s2 = log s ++ [Entry (depth s) (EvMalloc len buf);
                          Entry (depth s) (EvStrncpy buf str len)].
Proof.
  intros Hlen Hstr. unfold run, putnstr_copy. cbn.
  rewrite (size_mul_char len Hlen). unfold do_malloc.
  set (p := k_malloc K (log s) len).
  destruct (decide (p = NULL)) as [Hnull | Hnull]; simpl; [discriminate |].
  destruct (mem s !! p) eqn:Hfresh; simpl; [discriminate |].
  unfold do_strncpy. simpl.
  destruct (decide (p = NULL \/ str = NULL)) as [| Hnn]; simpl; [discriminate |].
  rewrite lookup_insert_eq.
  assert (Hne : p <> str) by (intros ->; congruence).
  rewrite lookup_insert_ne by done. rewrite Hstr.
  destruct (decide (Z.to_nat len ≤ length (repeat x00 (Z.to_nat len)))%nat) as [Hle | Hle];
    simpl; [| discriminate].
  destruct (strncpy_bytes sb (Z.to_nat len)) as [w |] eqn:Hw; simpl; [| discriminate].
  intros [= <- <-]. exists w. simpl. split_and!; try done.
  - rewrite insert_insert_eq. f_equal.
    rewrite drop_ge by (rewrite repeat_length; lia). apply app_nil_r.
  - by rewrite <- app_assoc.
Qed.











Example putnstr_hi :
  added good_kernel 5 (putnstr 100 2) hi_machine =
    [Entry 0 (EvMalloc 2 4096); Entry 0 (EvStrncpy 4096 100 2);
     Entry 0 (EvAllow 0 1 4096 2 0); Entry 0 (EvSubscribe 0 1 FN_putstr_cb 4096 0);
     Entry 0 (EvWaitFor PUTSTR);
     Entry 1 (EvEnter FN_putstr_cb 0 0 0 4096); Entry 1 (EvFree 4096);
     Entry 1 (EvLeave PUTSTR)]
  /\ (exists s2, run good_kernel 5 (putnstr_copy 100 2) hi_machine = Done 4096 s2
                 /\ mem s2 !! 4096 = Some [x68; x69]).
Proof. split; [vm_compute; reflexivity | eexists; split; vm_compute; reflexivity]. Qed.

(** * Further properties of the facades *)

(** ** The calls that do not block *)






(** ** The combined SPI transfer *)

(** X2: when the grant of the read buffer, the grant of the write buffer
    and the subscription all return a status that is not negative,
    [spi_read_write] has issued, in this order, allow (4, 0) on the read
    buffer, allow (4, 1) on the write buffer, subscribe (4, 0) and command
    (4, 1) with the length, and returns the status of the command. *)
Theorem spi_read_write_all_succeed K fuel write read len cb s :
  let r0 := k_allow K (log s) 4 0 read len in
  let s0 := record (EvAllow 4 0 read len r0) s in
  let r1 := k_allow K (log s0) 4 1 write len in
  let s1 := record (EvAllow 4 1 write len r1) s0 in
  let r2 := k_subscribe K (log s1) 4 0 cb NULL in
  let s2 := record (EvSubscribe 4 0 cb NULL r2) s1 in
  let r3 := k_command K (log s2) 4 1 (to_int len) in
  0 <= r0 -> 0 <= r1 -> 0 <= r2 ->
  run K fuel (spi_read_write write read len cb) s =
    Done r3 (record (EvCommand 4 1 (to_int len) r3) s2)
  /\ issued K fuel (spi_read_write write read len cb) s =
       [EvAllow 4 0 read len r0; EvAllow 4 1 write len r1;
        EvSubscribe 4 0 cb NULL r2; EvCommand 4 1 (to_int len) r3].
Proof.
  intros r0 s0 r1 s1 r2 s2 r3 H0 H1 H2.
  assert (Hrun : run K fuel (spi_read_write write read len cb) s =
                 Done r3 (record (EvCommand 4 1 (to_int len) r3) s2)).
  { rewrite run_spi_read_write. cbn zeta. fold r0.
    destruct (Z.ltb_spec r0 0); [lia |]. fold s0.
    rewrite run_spi_write. cbn zeta. fold r1.
    destruct (Z.ltb_spec r1 0); [lia |]. fold s1. fold r2.
    destruct (Z.ltb_spec r2 0); [lia |]. reflexivity. }
  split; [exact Hrun |].
  unfold issued. rewrite Hrun. unfold s2, s1, s0. by read_log.
Qed.

Lemma spi_read_write_all_succeed_witness :
  run good_kernel 0 (spi_read_write 100 200 2 (FN_app 0)) hi_machine =
    Done 0 (record (EvCommand 4 1 2 0)
             (record (EvSubscribe 4 0 (FN_app 0) NULL 0)
               (record (EvAllow 4 1 100 2 0)
                 (record (EvAllow 4 0 200 2 0) hi_machine))))
  /\ issued good_kernel 0 (spi_read_write 100 200 2 (FN_app 0)) hi_machine =
       [EvAllow 4 0 200 2 0; EvAllow 4 1 100 2 0;
        EvSubscribe 4 0 (FN_app 0) NULL 0; EvCommand 4 1 2 0].
Proof.
  apply (spi_read_write_all_succeed good_kernel 0 100 200 2 (FN_app 0) hi_machine);
    simpl; lia.
Defined.

(** X3: when the read buffer was granted and the grant of the write
    buffer returns a negative status, [spi_read_write] returns that status
    after these two calls only: it neither subscribes nor triggers, and it
    issues no call that takes the read buffer back. *)
Theorem spi_read_write_write_grant_fails K fuel write read len cb s :
  let r0 := k_allow K (log s) 4 0 read len in
  let s0 := record (EvAllow 4 0 read len r0) s in
  let r1 := k_allow K (log s0) 4 1 write len in
  0 <= r0 -> r1 < 0 ->
  run K fuel (spi_read_write write read len cb) s =
    Done r1 (record (EvAllow 4 1 write len r1) s0)
  /\ issued K fuel (spi_read_write write read len cb) s =
       [EvAllow 4 0 read len r0; EvAllow 4 1 write len r1].
Proof.
  intros r0 s0 r1 H0 H1.
  assert (Hrun : run K fuel (spi_read_write write read len cb) s =
                 Done r1 (record (EvAllow 4 1 write len r1) s0)).
  { rewrite run_spi_read_write. cbn zeta. fold r0.
    destruct (Z.ltb_spec r0 0); [lia |]. fold s0.
    rewrite run_spi_write. cbn zeta. fold r1.
    destruct (Z.ltb_spec r1 0); [reflexivity | lia]. }
  split; [exact Hrun |].
  unfold issued. rewrite Hrun. unfold s0. by read_log.
Qed.

Lemma spi_read_write_write_grant_fails_witness :
  run write_refusing_kernel 0 (spi_read_write 100 200 2 (FN_app 0)) hi_machine =
    Done (-1) (record (EvAllow 4 1 100 2 (-1)) (record (EvAllow 4 0 200 2 0) hi_machine))
  /\ issued write_refusing_kernel 0 (spi_read_write 100 200 2 (FN_app 0)) hi_machine =
       [EvAllow 4 0 200 2 0; EvAllow 4 1 100 2 (-1)].
Proof.
  apply (spi_read_write_write_grant_fails write_refusing_kernel 0 100 200 2 (FN_app 0)
           hi_machine); simpl; lia.
Defined.

(** ** The timer *)

(** X4: [timer_oneshot] and [timer_start_repeating] issue one command to
    driver 3 (number 0 and number 1) and return its status.  The argument
    is the interval cast to [int]: the interval itself below 2^31, and the
    negative number [interval - 2^32] from 2^31 on. *)
Theorem timer_interval_as_int K fuel interval s :
  0 <= interval < uint32_modulus ->
  let a := if interval <? int_half_modulus then interval else interval - uint32_modulus in
  run K fuel (timer_oneshot interval) s =
    (let r := k_command K (log s) 3 0 a in Done r (record (EvCommand 3 0 a r) s))
  /\ run K fuel (timer_start_repeating interval) s =
    (let r := k_command K (log s) 3 1 a in Done r (record (EvCommand 3 1 a r) s))
  /\ (interval < int_half_modulus -> a = interval)
  /\ (int_half_modulus <= interval -> a < 0).
Proof.
  intros Hi a.
  assert (Ha : to_int interval = a).
  { unfold to_int, a. by rewrite Z.mod_small. }
  split_and!.
  - unfold run, timer_oneshot. cbn. by rewrite Ha.
  - unfold run, timer_start_repeating. cbn. by rewrite Ha.
  - unfold a. destruct (Z.ltb_spec interval int_half_modulus); lia.
  - unfold a, uint32_modulus, int_half_modulus in *.
    destruct (Z.ltb_spec interval (2 ^ 31)); lia.
Qed.

Lemma timer_interval_as_int_witness :
  run good_kernel 0 (timer_oneshot 4294967295) hi_machine =
    Done 0 (record (EvCommand 3 0 (-1) 0) hi_machine)
  /\ run good_kernel 0 (timer_start_repeating 1000) hi_machine =
    Done 0 (record (EvCommand 3 1 1000 0) hi_machine).
Proof.
  destruct (timer_interval_as_int good_kernel 0 4294967295 hi_machine) as (H1 & _);
    [unfold uint32_modulus; lia |].
  destruct (timer_interval_as_int good_kernel 0 1000 hi_machine) as (_ & H2 & _);
    [unfold uint32_modulus; lia |].
  split; [exact H1 | exact H2].
Defined.

(** X5: when the callback the kernel delivers first after [delay_ms] has
    started to wait is [delay_cb], [delay_ms] returns (one unit of fuel is
    enough) having logged its three calls and that one dispatch, with the
    memory and the heap as they were; this holds for every interval, 0
    included. *)
Theorem delay_ms_returns_when_timer_fires K fuel ms x y z ud s :
  let r1 := k_subscribe K (log s) 3 0 FN_delay_cb NULL in
  let s1 := record (EvSubscribe 3 0 FN_delay_cb NULL r1) s in
  let r2 := k_command K (log s1) 3 0 (to_int ms) in
  let s2 := record (EvCommand 3 0 (to_int ms) r2) s1 in
  let s3 := record (EvWaitFor DELAY) s2 in
  k_yield K (log s3) = Some (FN_delay_cb, (x, y, z), ud) ->
  exists s',
    run K (S fuel) (delay_ms ms) s = Done tt s'
    /\ mem s' = mem s /\ live s' = live s /\ depth s' = depth s
    /\ added K (S fuel) (delay_ms ms) s =
         [Entry (depth s) (EvSubscribe 3 0 FN_delay_cb NULL r1);
          Entry (depth s) (EvCommand 3 0 (to_int ms) r2);
          Entry (depth s) (EvWaitFor DELAY);
          Entry (S (depth s)) (EvEnter FN_delay_cb x y z ud);
          Entry (S (depth s)) (EvLeave DELAY)].
Proof.
  intros r1 s1 r2 s2 s3 Hy.
  assert (Hrun : run K (S fuel) (delay_ms ms) s =
                 Done tt (leave (depth s) DELAY (enter FN_delay_cb x y z ud s3))).
  { rewrite run_delay_ms. cbn zeta. fold r1 s1 r2 s2 s3.
    rewrite (serve_wait_step K fuel DELAY s3 FN_delay_cb x y z ud DELAY
               (enter FN_delay_cb x y z ud s3) Hy eq_refl).
    by rewrite decide_True. }
  eexists. split; [exact Hrun |]. split_and!; try reflexivity.
  unfold added. rewrite Hrun. unfold s3, s2, s1. simpl.
  rewrite <- !app_assoc. apply since_app.
Qed.

Lemma delay_ms_returns_when_timer_fires_witness :
  exists s', run good_kernel 1 (delay_ms 0) hi_machine = Done tt s'
             /\ mem s' = mem hi_machine /\ live s' = live hi_machine.
Proof.
  destruct (delay_ms_returns_when_timer_fires good_kernel 0 0 0 0 0 NULL hi_machine)
    as (s' & Hrun & Hm & Hl & _).
  - reflexivity.
  - exists s'. split_and!; [exact Hrun | exact Hm | exact Hl].
Defined.

(** A wait does not return while no callback yields its tag. *)
Lemma serve_wait_never K t :
  never_yields K t -> forall fuel s u s', serve_wait K fuel t s <> Done u s'.
Proof.
  intros Hnever fuel. induction fuel as [| fuel IH]; intros s u s'; simpl; [discriminate |].
  destruct (k_yield K (log s)) as [[[cb [[x y] z]] ud] |] eqn:Hy; [| discriminate].
  specialize (Hnever _ _ _ _ _ _ Hy).
  destruct cb; unfold cb_code; cbn [tag_of] in Hnever.
  - change (exec K (serve_wait K fuel) (putstr_cb x y z ud) (enter FN_putstr_cb x y z ud s))
      with (run K fuel (putstr_cb x y z ud) (enter FN_putstr_cb x y z ud s)).
    rewrite run_putstr_cb. destruct (do_free ud _); simpl; try discriminate.
    rewrite decide_False by congruence. apply IH.
  - simpl. rewrite decide_False by congruence. apply IH.
  - simpl. rewrite decide_False by congruence. apply IH.
  - simpl. rewrite decide_False by apply Hnever. apply IH.
Qed.

(** X6: the blocking calls have no timeout of their own: on a kernel that
    never delivers a callback yielding [DELAY], [delay_ms] does not return,
    however much fuel it is given, and likewise [putnstr] on a kernel that
    never delivers a callback yielding [PUTSTR]. *)
Theorem blocking_calls_have_no_timeout K fuel s :
  (never_yields K DELAY -> forall ms s', run K fuel (delay_ms ms) s <> Done tt s')
  /\ (never_yields K PUTSTR -> forall str len s', run K fuel (putnstr str len) s <> Done tt s').
Proof.
  split; intros Hnever.
  - intros ms s'. rewrite run_delay_ms. cbn zeta. by apply serve_wait_never.
  - intros str len s'. rewrite run_putnstr.
    destruct (run K fuel (putnstr_copy str len) s); simpl; try discriminate.
    by apply serve_wait_never.
Qed.

Lemma spi_kernel_never_yields_delay : never_yields (repeating_kernel FN_spi_cb NULL) DELAY.
Proof. intros l cb x y z ud [= <- _ _ _ _]. discriminate. Qed.

Lemma blocking_calls_have_no_timeout_witness :
  ~ (exists s', run (repeating_kernel FN_spi_cb NULL) 9 (delay_ms 5) hi_machine = Done tt s').
Proof.
  destruct (blocking_calls_have_no_timeout (repeating_kernel FN_spi_cb NULL) 9 hi_machine)
    as [Hdelay _].
  intros [s' Hs']. exact (Hdelay spi_kernel_never_yields_delay 5 s' Hs').
Defined.

(** ** Printing a C string *)










(** ** The heap across a blocking print *)







(** ** A foreign callback that yields the console tag *)

(** X10: when the first callback delivered during the wait of [putnstr]
    is an application callback that yields [PUTSTR], [putnstr] returns
    although its own completion callback has not run: the buffer has not
    been passed to [free] and is still live, still holding the copy. *)
Theorem putnstr_leaks_on_foreign_putstr K fuel str len sb id x y z ud s s2 :
  let buf := k_malloc K (log s) len in
  let r1 := k_allow K (log s2) 0 1 buf len in
  let s3 := record (EvAllow 0 1 buf len r1) s2 in
  let r2 := k_subscribe K (log s3) 0 1 FN_putstr_cb buf in
  let s4 := record (EvSubscribe 0 1 FN_putstr_cb buf r2) s3 in
  let s5 := record (EvWaitFor PUTSTR) s4 in
  is_size_t len ->
  mem s !! str = Some sb ->
  run K fuel (putnstr_copy str len) s = Done buf s2 ->
  k_yield K (log s5) = Some (FN_app id, (x, y, z), ud) ->
  k_app K (log (enter (FN_app id) x y z ud s5)) id x y z ud = PUTSTR ->
  exists s',
    run K (S fuel) (putnstr str len) s = Done tt s'
    /\ buf ∈ live s'
    /\ is_Some (mem s' !! buf)
    /\ frees buf (added K (S fuel) (putnstr str len) s) = 0%nat.
Proof.
  intros buf r1 s3 r2 s4 s5 Hlen Hstr Hcopy Hy Happ.
  destruct (run_putnstr_copy K fuel str len sb s buf s2 Hlen Hstr Hcopy)
    as (w & _ & Hnull & Hfresh & Hw & Hmem & Hlive & Hdep & Hlog).
  assert (Hcopy' : run K (S fuel) (putnstr_copy str len) s = Done buf s2) by exact Hcopy.
  assert (Hrun : run K (S fuel) (putnstr str len) s =
                 Done tt (leave (depth s5) PUTSTR (enter (FN_app id) x y z ud s5))).
  { rewrite run_putnstr, Hcopy'. unfold outcome_bind. cbv beta iota zeta.
    fold buf r1 s3 r2 s4 s5.
    rewrite (serve_wait_step K fuel PUTSTR s5 (FN_app id) x y z ud PUTSTR
               (enter (FN_app id) x y z ud s5) Hy).
    - by destruct (decide (PUTSTR = PUTSTR)).
    - unfold run. simpl. simpl in Happ. by rewrite Happ. }
  eexists. split; [exact Hrun |]. split_and!.
  - simpl. rewrite Hlive. apply elem_of_union_l. by apply elem_of_singleton.
  - simpl. rewrite Hmem, lookup_insert_eq. by eexists.
  - unfold added. rewrite Hrun. cbn [final]. unfold s5, s4, s3. simpl.
    rewrite Hlog, <- !app_assoc, since_app. reflexivity.
Qed.

Lemma putnstr_leaks_on_foreign_putstr_witness :
  exists s',
    run confusing_kernel 1 (putnstr 100 2) hi_machine = Done tt s'
    /\ 4096 ∈ live s'
    /\ frees 4096 (added confusing_kernel 1 (putnstr 100 2) hi_machine) = 0%nat.
Proof.
  destruct (putnstr_leaks_on_foreign_putstr confusing_kernel 0 100 2 [x68; x69; x00]
              0 0 0 0 NULL hi_machine
              (final (run confusing_kernel 0 (putnstr_copy 100 2) hi_machine)))
    as (s' & Hrun & Hlive & _ & Hfrees).
  - unfold is_size_t, uint32_modulus. lia.
  - reflexivity.
  - vm_compute. reflexivity.
  - reflexivity.
  - reflexivity.
  - exists s'. split_and!; [exact Hrun | exact Hlive | exact Hfrees].
Defined.
